(** * CompanionWinRT: error-code translation and the ImageStream wrapper

    A shallow embedding of [utils/CompanionError.h] (the platform enumeration
    [ErrorCode], [CompanionErrorUWP::getError] and [getErrorCode]) and of the
    life cycle of the [ImageStream] wrapper declared in [input/ImageStream.h].

    Enumerations are integers, as in C++: an [enum class] object can hold any
    value of its underlying type, named or not.  A [switch] is a first-match
    lookup in the list of its [case] labels, in source order. *)

From Stdlib Require Import ZArith String.
From stdpp Require Import base decidable option list gmap strings.

Local Open Scope string_scope.
Local Open Scope Z_scope.

(** ** The C++ [switch] statement *)

Module Cxx.

(** [switch code cases dflt]: the value of a local variable that is
    initialised to [dflt] and then assigned by
    [switch (code) { case k1: x = v1; break; case k2: x = v2; break; ... }],
    a switch without a [default:] label. *)
Fixpoint switch {A : Type} (code : Z) (cases : list (Z * A)) (dflt : A) : A :=
  match cases with
  | [] => dflt
  | (label, value) :: rest =>
      if code =? label then value else switch code rest dflt
  end.

(** The [case] labels of a switch. *)
Definition labels {A : Type} (cases : list (Z * A)) : list Z := cases.*1.

End Cxx.

(** ** The platform enumeration [ErrorCode] (user defined HRESULTs)

    The enumerators are the values the declaration writes: [0x80000100] and
    its seventeen successors, the 32-bit patterns of the HRESULTs.  Read in
    the underlying type [int] the same patterns are negative numbers.  Both
    functions compare codes for equality only, so nothing below depends on
    which of the two readings is taken. *)

Module ErrorCode.

Definition t : Type := Z.

Definition unknown_error : t := 0x80000100.
Definition image_not_found : t := unknown_error + 1.
Definition dimension_error : t := unknown_error + 2.
Definition template_dimension_error : t := unknown_error + 3.
Definition feature_detector_not_found : t := unknown_error + 4.
Definition descriptor_extractor_not_found : t := unknown_error + 5.
Definition descriptor_matcher_not_found : t := unknown_error + 6.
Definition wrong_model_type : t := unknown_error + 7.
Definition invalid_companion_config : t := unknown_error + 8.
Definition video_src_not_set : t := unknown_error + 9.
Definition invalid_video_src : t := unknown_error + 10.
Definition no_image_processing_algo_set : t := unknown_error + 11.
Definition no_handler_set : t := unknown_error + 12.
(* additional error codes *)
Definition model_not_added : t := unknown_error + 13.
Definition recognition_not_found : t := unknown_error + 14.
Definition config_or_recognition_not_found : t := unknown_error + 15.
Definition objectdetection_not_found : t := unknown_error + 16.
Definition model_path_not_set : t := unknown_error + 17.

(** The enumerators that mirror an error code of the native library. *)
Definition mirrored : list t :=
  [ image_not_found; dimension_error; template_dimension_error;
    feature_detector_not_found; descriptor_extractor_not_found;
    descriptor_matcher_not_found; wrong_model_type;
    invalid_companion_config; video_src_not_set; invalid_video_src;
    no_image_processing_algo_set; no_handler_set ].

(** The enumerators below the line "additional error codes". *)
Definition wrapper_local : list t :=
  [ model_not_added; recognition_not_found;
    config_or_recognition_not_found; objectdetection_not_found;
    model_path_not_set ].

(** All enumerators, in declaration order. *)
Definition enumerators : list t :=
  unknown_error :: mirrored ++ wrapper_local.

End ErrorCode.

(** ** What the wrapper uses of the native library and of [CompanionUtils.h] *)

Definition std_string : Type := string.
Definition Platform_String : Type := string.

Module Companion.
Module Error.

(** [Companion::Error::Code], an [enum class] of the native library. *)
Definition Code : Type := Z.

(** The native header [<companion/util/CompanionError.h>] is not part of
    the wrapper: the twelve enumerators the wrapper names and the native
    message lookup [Companion::Error::getError] are parameters. *)
Class Lib : Type := {
  image_not_found : Code;
  dimension_error : Code;
  template_dimension_error : Code;
  feature_detector_not_found : Code;
  descriptor_extractor_not_found : Code;
  descriptor_matcher_not_found : Code;
  wrong_model_type : Code;
  invalid_companion_config : Code;
  video_src_not_set : Code;
  invalid_video_src : Code;
  no_image_processing_algo_set : Code;
  no_handler_set : Code;
  getError : Code -> std_string
}.

End Error.

(** The native streaming classes ([Companion::Input::Stream],
    [Companion::Input::Image]) belong to the native library, and
    [ImageStream.cpp], which creates and releases the native object, is not
    among the sources.  The spec describes the concrete class as "an
    image-stream concrete type constructible from a path list". *)
Module Input.

(** Modelled from the spec: the identity of a native object ("the address of
    the owned native object"); an identity is never given out twice. *)
Definition addr : Type := positive.

(** Modelled from the spec: [Companion::Input::Image], "one native
    image-stream object over those paths". *)
Record Image : Type := { paths : list std_string }.

(** Modelled from the spec: the native objects that are live, and the log of
    the releases ("releases the owned native object"). *)
Record Store : Type := {
  live : gmap addr Image;
  released : list addr
}.

(** Modelled from the spec: [new Companion::Input::Image(paths)], the
    creation of the native object in the missing constructor body. *)
Definition new_Image (ps : list std_string) (s : Store) : addr * Store :=
  let a := fresh (dom (live s) ∪ list_to_set (released s)) in
  (a, {| live := <[a := {| paths := ps |}]> (live s);
         released := released s |}).

(** Modelled from the spec: [delete p] in the missing destructor body; it
    releases a live object, and releasing anything else is undefined
    ([None]). *)
Definition delete_Image (a : addr) (s : Store) : option Store :=
  match live s !! a with
  | Some _ => Some {| live := delete a (live s);
                      released := a :: released s |}
  | None => None
  end.


End Input.
End Companion.

(** [ss2ps], the conversion of a [std::string] to a [Platform::String^], is
    defined in [CompanionUtils.h], which is not among the sources: it is a
    parameter. *)
Class CompanionUtils : Type := {
  ss2ps : std_string -> Platform_String
}.

(** ** [CompanionErrorUWP::getError] and [getErrorCode] *)

Module CompanionWinRT.
Section ErrorTranslation.

Context `{Native : Companion.Error.Lib} `{Utils : CompanionUtils}.

(** The [case]s of the switch in [CompanionErrorUWP::getError]. *)
Definition getError_cases : list (ErrorCode.t * Platform_String) :=
  [ (ErrorCode.descriptor_extractor_not_found,
      ss2ps (Companion.Error.getError Companion.Error.descriptor_extractor_not_found));
    (ErrorCode.descriptor_matcher_not_found,
      ss2ps (Companion.Error.getError Companion.Error.descriptor_matcher_not_found));
    (ErrorCode.dimension_error,
      ss2ps (Companion.Error.getError Companion.Error.dimension_error));
    (ErrorCode.feature_detector_not_found,
      ss2ps (Companion.Error.getError Companion.Error.feature_detector_not_found));
    (ErrorCode.image_not_found,
      ss2ps (Companion.Error.getError Companion.Error.image_not_found));
    (ErrorCode.template_dimension_error,
      ss2ps (Companion.Error.getError Companion.Error.template_dimension_error));
    (ErrorCode.wrong_model_type,
      ss2ps (Companion.Error.getError Companion.Error.wrong_model_type));
    (ErrorCode.invalid_companion_config,
      ss2ps (Companion.Error.getError Companion.Error.invalid_companion_config));
    (ErrorCode.video_src_not_set,
      ss2ps (Companion.Error.getError Companion.Error.video_src_not_set));
    (ErrorCode.invalid_video_src,
      ss2ps (Companion.Error.getError Companion.Error.invalid_video_src));
    (ErrorCode.no_image_processing_algo_set,
      ss2ps (Companion.Error.getError Companion.Error.no_image_processing_algo_set));
    (ErrorCode.no_handler_set,
      ss2ps (Companion.Error.getError Companion.Error.no_handler_set));
    (ErrorCode.model_not_added,
      "Could not add model to configuration.");
    (ErrorCode.recognition_not_found,
      "The handle to the CPUFeatureMatching object is null.");
    (ErrorCode.config_or_recognition_not_found,
      "At least one of the provided pointers/handles to the 'Configuration' and 'CPUFeatureMatching' objects is null.");
    (ErrorCode.objectdetection_not_found,
      "The handle that points to the 'ObjectDetection' objects is null.");
    (ErrorCode.model_path_not_set,
      "The handle that points to the model path is null.") ].

(** [CompanionErrorUWP::getError]: the error message of an error code. *)
Definition getError (code : ErrorCode.t) : Platform_String :=
  let error := "Unknown Error" in
  Cxx.switch code getError_cases error.

(** The [case]s of the switch in [getErrorCode]. *)
Definition getErrorCode_cases : list (Companion.Error.Code * ErrorCode.t) :=
  [ (Companion.Error.descriptor_extractor_not_found,
      ErrorCode.descriptor_extractor_not_found);
    (Companion.Error.descriptor_matcher_not_found,
      ErrorCode.descriptor_matcher_not_found);
    (Companion.Error.dimension_error,
      ErrorCode.dimension_error);
    (Companion.Error.feature_detector_not_found,
      ErrorCode.feature_detector_not_found);
    (Companion.Error.image_not_found,
      ErrorCode.image_not_found);
    (Companion.Error.template_dimension_error,
      ErrorCode.template_dimension_error);
    (Companion.Error.wrong_model_type,
      ErrorCode.wrong_model_type);
    (Companion.Error.invalid_companion_config,
      ErrorCode.invalid_companion_config);
    (Companion.Error.video_src_not_set,
      ErrorCode.video_src_not_set);
    (Companion.Error.invalid_video_src,
      ErrorCode.invalid_video_src);
    (Companion.Error.no_image_processing_algo_set,
      ErrorCode.no_image_processing_algo_set);
    (Companion.Error.no_handler_set,
      ErrorCode.no_handler_set) ].

(** [getErrorCode]: the HRESULT error code of a Companion error code. *)
Definition getErrorCode (code : Companion.Error.Code) : ErrorCode.t :=
  let error := ErrorCode.unknown_error in
  Cxx.switch code getErrorCode_cases error.

(** The native codes with an entry in the table of [getErrorCode]. *)
Definition mapped_codes : list Companion.Error.Code :=
  Cxx.labels getErrorCode_cases.

(** The platform codes with a [case] in [getError]. *)
Definition getError_labels : list ErrorCode.t :=
  Cxx.labels getError_cases.

End ErrorTranslation.

(** ** The [ImageStream] wrapper

    [ImageStream.h] declares the constructor, the destructor, the accessor
    [getStream] and the field [imageStreamObj]; their bodies, in
    [ImageStream.cpp], are not among the sources. *)
Module ImageStream.

Import Companion.Input.

(** Modelled from the spec: the states of the missing life-cycle code,
    "two states, Constructed → Destroyed". *)
Inductive state : Type := Constructed | Destroyed.


(** Modelled from the spec: a wrapper object, the declared field
    [imageStreamObj] ("holds exclusive ownership of one native stream
    object") and its state in the life cycle. *)
Record t : Type := {
  imageStreamObj : addr;
  lifecycle : state
}.

(** Modelled from the spec: the missing body of
    [ImageStream::ImageStream(imagePathList)], "builds one native
    image-stream object over those paths"; "constructor does not itself
    validate path existence". *)
Definition new (imagePathList : list Platform_String) (s : Store)
  : t * Store :=
  let '(a, s') := new_Image imagePathList s in
  ({| imageStreamObj := a; lifecycle := Constructed |}, s').

(** Modelled from the spec: the missing body of
    [ImageStream::~ImageStream()], "releases the owned native object"; [None]
    where the spec leaves the behaviour undefined. *)
Definition destruct (w : t) (s : Store) : option (t * Store) :=
  match lifecycle w with
  | Constructed =>
      s' ← delete_Image (imageStreamObj w) s;
      Some ({| imageStreamObj := imageStreamObj w;
               lifecycle := Destroyed |}, s')
  | Destroyed => None
  end.

(** Modelled from the spec: the missing body of [ImageStream::getStream()],
    "returns the address of the owned native object", "valid only in
    Constructed state". *)
Definition getStream (w : t) : option addr :=
  match lifecycle w with
  | Constructed => Some (imageStreamObj w)
  | Destroyed => None
  end.


End ImageStream.

End CompanionWinRT.

(** ** A concrete native library

    Twelve enumerators numbered in the order of the mirrored platform
    enumerators, and a message per code: an instance of the parameters on
    which the theorems below can be evaluated. *)
Module Sample.

Definition native : Companion.Error.Lib := {|
  Companion.Error.image_not_found := 0;
  Companion.Error.dimension_error := 1;
  Companion.Error.template_dimension_error := 2;
  Companion.Error.feature_detector_not_found := 3;
  Companion.Error.descriptor_extractor_not_found := 4;
  Companion.Error.descriptor_matcher_not_found := 5;
  Companion.Error.wrong_model_type := 6;
  Companion.Error.invalid_companion_config := 7;
  Companion.Error.video_src_not_set := 8;
  Companion.Error.invalid_video_src := 9;
  Companion.Error.no_image_processing_algo_set := 10;
  Companion.Error.no_handler_set := 11;
  Companion.Error.getError := λ code,
    Cxx.switch code
      [ (0, "Could not find image."); (1, "Dimensions are unequal.");
        (2, "Template dimension is wrong."); (3, "Feature detector not found.");
        (4, "Descriptor extractor not found."); (5, "Descriptor matcher not found.");
        (6, "Wrong model type."); (7, "Invalid configuration.");
        (8, "Video source not set."); (9, "Invalid video source.");
        (10, "No image processing algorithm set."); (11, "No handler set.") ]
      ""
|}.

Definition utils : CompanionUtils := {| ss2ps := λ s, s |}.

Definition empty_store : Companion.Input.Store :=
  {| Companion.Input.live := ∅; Companion.Input.released := [] |}.

End Sample.

(** * Properties *)

(** ** The switch *)

Section SwitchFacts.

Context {A : Type}.
Implicit Types (code : Z) (cases : list (Z * A)) (dflt : A).

(** Without a matching label no case runs. *)
Lemma switch_no_label code cases dflt :
  code ∉ Cxx.labels cases → Cxx.switch code cases dflt = dflt.
Proof.
  unfold Cxx.labels.
  induction cases as [|[label value] rest IH]; intros Hnot; [done|].
  cbn in *. apply not_elem_of_cons in Hnot as [Hne Hrest].
  destruct (Z.eqb_spec code label) as [->|_]; [done|]. by apply IH.
Qed.

(** The result is the default when no label matches, and the value of a
    case of that label otherwise. *)
Lemma switch_cases code cases dflt :
  ((code ∉ Cxx.labels cases) ∧ Cxx.switch code cases dflt = dflt) ∨
  (∃ value, (code, value) ∈ cases ∧ Cxx.switch code cases dflt = value).
Proof.
  unfold Cxx.labels.
  induction cases as [|[label value] rest IH]; cbn.
  - left. split; [apply not_elem_of_nil | done].
  - destruct (Z.eqb_spec code label) as [->|Hne].
    + right. exists value. split; [left | done].
    + destruct IH as [[Hnot Hd]|(v & Hin & Hv)].
      * left. split; [|done]. by apply not_elem_of_cons.
      * right. exists v. split; [by right | done].
Qed.

(** With pairwise distinct labels, as C++ demands of a switch, every case
    is reached by its label. *)
Lemma switch_hit code value cases dflt :
  NoDup (Cxx.labels cases) → (code, value) ∈ cases →
  Cxx.switch code cases dflt = value.
Proof.
  unfold Cxx.labels.
  induction cases as [|[label v] rest IH]; intros Hnd Hin.
  - by apply elem_of_nil in Hin.
  - cbn in *. apply NoDup_cons in Hnd as [Hfresh Hnd].
    apply elem_of_cons in Hin as [Heq|Hin].
    + injection Heq as -> ->. by rewrite Z.eqb_refl.
    + destruct (Z.eqb_spec code label) as [->|_]; [|by apply IH].
      exfalso. apply Hfresh. apply list_elem_of_fmap.
      by exists (label, value).
Qed.

End SwitchFacts.

(** ** The enumerations and the two tables *)

Import CompanionWinRT.

Lemma enumerators_distinct : NoDup ErrorCode.enumerators.
Proof. compute_done. Qed.

Section TableFacts.

Context `{Native : Companion.Error.Lib} `{Utils : CompanionUtils}.

(** The labels of [getError] are pairwise distinct enumerators. *)
Lemma getError_labels_distinct : NoDup getError_labels.
Proof. compute_done. Qed.

Lemma getError_labels_enumerators :
  getError_labels ⊆ ErrorCode.enumerators.
Proof.
  intros e. revert e. apply Forall_forall. compute_done.
Qed.

(** [getErrorCode] assigns mirrored enumerators only. *)
Lemma getErrorCode_targets :
  getErrorCode_cases.*2 ⊆ ErrorCode.mirrored.
Proof.
  intros e. revert e. apply Forall_forall. compute_done.
Qed.

Lemma mirrored_not_wrapper_local e :
  e ∈ ErrorCode.unknown_error :: ErrorCode.mirrored →
  e ∉ ErrorCode.wrapper_local.
Proof.
  revert e. apply Forall_forall. compute_done.
Qed.

(** A native code is mapped exactly when [getErrorCode] takes a case. *)
Lemma getErrorCode_mapped code :
  code ∈ mapped_codes →
  ∃ e, (code, e) ∈ getErrorCode_cases ∧ getErrorCode code = e.
Proof.
  intros Hin. unfold getErrorCode.
  destruct (switch_cases code getErrorCode_cases ErrorCode.unknown_error)
    as [[Hnot _]|Hcase]; [by destruct Hnot | exact Hcase].
Qed.

(** The message of the platform code of a case of [getErrorCode] is the
    converted native message of the native code of that case. *)
Lemma getError_of_case code e :
  (code, e) ∈ getErrorCode_cases →
  getError e = ss2ps (Companion.Error.getError code).
Proof.
  intros Hin. unfold getErrorCode_cases in Hin.
  repeat (apply elem_of_cons in Hin as [[= -> ->]|Hin]; [reflexivity|]).
  by apply elem_of_nil in Hin.
Qed.

(** The platform codes assigned by [getErrorCode] are pairwise distinct:
    no two cases share one. *)
Lemma getErrorCode_targets_distinct : NoDup getErrorCode_cases.*2.
Proof. compute_done. Qed.

Lemma getErrorCode_cases_inj c1 c2 e :
  (c1, e) ∈ getErrorCode_cases → (c2, e) ∈ getErrorCode_cases → c1 = c2.
Proof.
  generalize getErrorCode_targets_distinct.
  induction getErrorCode_cases as [|[c e'] rest IH]; cbn; intros Hnd H1 H2.
  - by apply elem_of_nil in H1.
  - apply NoDup_cons in Hnd as [Hfresh Hnd].
    assert (Hsnd : ∀ c', (c', e') ∈ rest → False).
    { intros c' Hin. apply Hfresh, list_elem_of_fmap. by exists (c', e'). }
    apply elem_of_cons in H1 as [H1|H1];
      apply elem_of_cons in H2 as [H2|H2]; simplify_eq;
      first [done | by exfalso; eapply Hsnd | by apply IH].
Qed.

End TableFacts.

(** ** The translation [getErrorCode] *)

Section TranslateFacts.

Context `{Native : Companion.Error.Lib} `{Utils : CompanionUtils}.

(** C2: [getErrorCode] returns, for every native code, an enumerator of
    [ErrorCode]; for a native code that is no label of its switch, that is
    [ErrorCode::unknown_error]. *)
Theorem getErrorCode_total (code : Companion.Error.Code) :
  getErrorCode code ∈ ErrorCode.enumerators ∧
  (code ∉ mapped_codes → getErrorCode code = ErrorCode.unknown_error).
Proof.
  split.
  - unfold getErrorCode.
    destruct (switch_cases code getErrorCode_cases ErrorCode.unknown_error)
      as [[_ ->]|(e & Hin & ->)].
    + by left.
    + right. apply elem_of_app. left. apply getErrorCode_targets.
      apply list_elem_of_fmap. by exists (code, e).
  - apply switch_no_label.
Qed.

(** C10: the result of [getErrorCode] is [unknown_error] or one of the
    twelve mirrored enumerators, never one of the five additional ones. *)
Theorem getErrorCode_image (code : Companion.Error.Code) :
  getErrorCode code ∈ ErrorCode.unknown_error :: ErrorCode.mirrored ∧
  getErrorCode code ∉ ErrorCode.wrapper_local.
Proof.
  assert (Him : getErrorCode code ∈ ErrorCode.unknown_error :: ErrorCode.mirrored).
  { unfold getErrorCode.
    destruct (switch_cases code getErrorCode_cases ErrorCode.unknown_error)
      as [[_ ->]|(e & Hin & ->)]; [by left|].
    right. apply getErrorCode_targets.
    apply list_elem_of_fmap. by exists (code, e). }
  split; [exact Him | by apply mirrored_not_wrapper_local].
Qed.

(** C7: provided the twelve native enumerators are pairwise distinct (C++
    rejects a switch with two equal case labels), two distinct native codes
    with a case in [getErrorCode] are translated to distinct platform codes,
    and each native enumerator to the platform enumerator of its name. *)
Theorem getErrorCode_one_to_one :
  NoDup mapped_codes →
  (∀ c1 c2, c1 ∈ mapped_codes → c2 ∈ mapped_codes → c1 ≠ c2 →
            getErrorCode c1 ≠ getErrorCode c2) ∧
  getErrorCode Companion.Error.image_not_found
    = ErrorCode.image_not_found ∧
  getErrorCode Companion.Error.dimension_error
    = ErrorCode.dimension_error ∧
  getErrorCode Companion.Error.template_dimension_error
    = ErrorCode.template_dimension_error ∧
  getErrorCode Companion.Error.feature_detector_not_found
    = ErrorCode.feature_detector_not_found ∧
  getErrorCode Companion.Error.descriptor_extractor_not_found
    = ErrorCode.descriptor_extractor_not_found ∧
  getErrorCode Companion.Error.descriptor_matcher_not_found
    = ErrorCode.descriptor_matcher_not_found ∧
  getErrorCode Companion.Error.wrong_model_type
    = ErrorCode.wrong_model_type ∧
  getErrorCode Companion.Error.invalid_companion_config
    = ErrorCode.invalid_companion_config ∧
  getErrorCode Companion.Error.video_src_not_set
    = ErrorCode.video_src_not_set ∧
  getErrorCode Companion.Error.invalid_video_src
    = ErrorCode.invalid_video_src ∧
  getErrorCode Companion.Error.no_image_processing_algo_set
    = ErrorCode.no_image_processing_algo_set ∧
  getErrorCode Companion.Error.no_handler_set
    = ErrorCode.no_handler_set.
Proof.
  intros Hdistinct. split.
  - intros c1 c2 H1 H2 Hne Heq.
    apply getErrorCode_mapped in H1 as (e1 & Hin1 & He1).
    apply getErrorCode_mapped in H2 as (e2 & Hin2 & He2).
    apply Hne. apply (getErrorCode_cases_inj c1 c2 e1); [done|].
    congruence.
  - repeat split;
      (apply switch_hit; [exact Hdistinct | set_solver]).
Qed.

End TranslateFacts.

(** ** The message lookup [CompanionErrorUWP::getError] *)

Section MessageFacts.

Context `{Native : Companion.Error.Lib} `{Utils : CompanionUtils}.


(** C3: a code that is no enumerator, or that has no case in the switch,
    gets "Unknown Error"; every code gets the message of a case of its
    value or "Unknown Error". *)
Theorem getError_total (code : ErrorCode.t) :
  (code ∉ ErrorCode.enumerators ∨ code ∉ getError_labels →
   getError code = "Unknown Error") ∧
  ((∃ msg, (code, msg) ∈ getError_cases ∧ getError code = msg) ∨
   getError code = "Unknown Error").
Proof.
  split.
  - intros Hout. apply switch_no_label.
    destruct Hout as [Hout|Hout]; [|exact Hout].
    intros Hin. by apply Hout, getError_labels_enumerators.
  - unfold getError.
    destruct (switch_cases code getError_cases "Unknown Error")
      as [[_ Hd]|Hcase]; [by right | by left].
Qed.

(** C9: [unknown_error] is no label of the switch, and its message is the
    initial value "Unknown Error". *)
Theorem getError_unknown_error :
  (ErrorCode.unknown_error ∉ getError_labels) ∧
  getError ErrorCode.unknown_error = "Unknown Error".
Proof. split; [compute_done | reflexivity]. Qed.

End MessageFacts.

(** C4: whatever the native library and [ss2ps] are, the five additional
    codes get the literal strings of their cases. *)
Theorem getError_wrapper_local
    (Native : Companion.Error.Lib) (Utils : CompanionUtils) :
  getError ErrorCode.model_not_added
    = "Could not add model to configuration." ∧
  getError ErrorCode.recognition_not_found
    = "The handle to the CPUFeatureMatching object is null." ∧
  getError ErrorCode.config_or_recognition_not_found
    = "At least one of the provided pointers/handles to the 'Configuration' and 'CPUFeatureMatching' objects is null." ∧
  getError ErrorCode.objectdetection_not_found
    = "The handle that points to the 'ObjectDetection' objects is null." ∧
  getError ErrorCode.model_path_not_set
    = "The handle that points to the model path is null.".
Proof. repeat split. Qed.

(** ** The theorems at the sample library *)


Lemma getErrorCode_total_sample :
  getErrorCode (Native := Sample.native) 12 = ErrorCode.unknown_error ∧
  getErrorCode (Native := Sample.native) (-1) = ErrorCode.unknown_error.
Proof.
  split.
  - apply (getErrorCode_total (Native := Sample.native) 12). compute_done.
  - apply (getErrorCode_total (Native := Sample.native) (-1)). compute_done.
Defined.

Lemma getErrorCode_one_to_one_sample :
  NoDup (mapped_codes (Native := Sample.native)) ∧
  getErrorCode (Native := Sample.native) 1 ≠
    getErrorCode (Native := Sample.native) 2 ∧
  getErrorCode (Native := Sample.native) 1 = ErrorCode.dimension_error.
Proof.
  assert (Hdistinct : NoDup (mapped_codes (Native := Sample.native)))
    by compute_done.
  pose proof (getErrorCode_one_to_one (Native := Sample.native) Hdistinct)
    as (Hinj & _ & Hdim & _).
  split; [exact Hdistinct|]. split; [|exact Hdim].
  apply Hinj; compute_done.
Defined.

Lemma getError_total_sample :
  getError (Native := Sample.native) (Utils := Sample.utils) 0
    = "Unknown Error" ∧
  getError (Native := Sample.native) (Utils := Sample.utils)
    (ErrorCode.model_path_not_set + 1) = "Unknown Error".
Proof.
  split.
  - apply (getError_total (Native := Sample.native) (Utils := Sample.utils) 0).
    left. compute_done.
  - apply (getError_total (Native := Sample.native) (Utils := Sample.utils)
             (ErrorCode.model_path_not_set + 1)).
    right. compute_done.
Defined.

(** ** The life cycle of [ImageStream] *)

Section StreamFacts.

Import Companion.Input ImageStream.
Implicit Types (s : Store) (a : addr) (w : ImageStream.t).


(** The object of [new] is neither live nor released before. *)
Lemma new_Image_fresh ps s :
  live s !! (new_Image ps s).1 = None ∧ (new_Image ps s).1 ∉ released s.
Proof.
  cbn. set (X := dom (live s) ∪ list_to_set (released s)).
  pose proof (is_fresh X) as Hfresh. split.
  - apply not_elem_of_dom. set_solver.
  - set_solver.
Qed.



(** What the constructor does to the store. *)
Lemma new_spec (imagePathList : list Platform_String) s :
  let w := (new imagePathList s).1 in
  let s' := (new imagePathList s).2 in
  lifecycle w = Constructed ∧
  getStream w = Some (imageStreamObj w) ∧
  live s !! imageStreamObj w = None ∧
  (imageStreamObj w ∉ released s) ∧
  live s' = <[imageStreamObj w := {| paths := imagePathList |}]> (live s) ∧
  released s' = released s.
Proof.
  destruct (new_Image_fresh imagePathList s) as [Hlive Hrel].
  cbn in *. by repeat split.
Qed.




(** C5: constructing a wrapper from any path list, the empty one included,
    adds one native object to the store, over exactly the given paths in
    the given order, and leaves the wrapper in the state Constructed. *)
Theorem ImageStream_new_paths (imagePathList : list Platform_String) s :
  let w := (new imagePathList s).1 in
  let s' := (new imagePathList s).2 in
  lifecycle w = Constructed ∧
  getStream w = Some (imageStreamObj w) ∧
  live s !! imageStreamObj w = None ∧
  paths <$> live s' !! imageStreamObj w = Some imagePathList ∧
  (∀ a, a ≠ imageStreamObj w → live s' !! a = live s !! a) ∧
  size (live s') = S (size (live s)) ∧
  released s' = released s ∧
  paths <$> live (new [] s).2 !! imageStreamObj (new [] s).1 = Some [].
Proof.
  intros w s'.
  destruct (new_spec imagePathList s)
    as (Hst & Hget & Hlive & _ & Hlive' & Hrel).
  fold w s' in Hst, Hget, Hlive, Hlive', Hrel.
  repeat split; try done.
  - by rewrite Hlive', lookup_insert_eq.
  - intros a Hne. by rewrite Hlive', lookup_insert_ne.
  - rewrite Hlive'. by apply map_size_insert_None.
  - destruct (new_spec [] s) as (_ & _ & _ & _ & -> & _).
    by rewrite lookup_insert_eq.
Qed.


End StreamFacts.

(** ** The life cycle on the empty store *)

Section StreamExamples.

Import Companion.Input ImageStream.

Example new_empty_path_list :
  new [] Sample.empty_store
  = ({| imageStreamObj := 1%positive; lifecycle := Constructed |},
     {| live := {[ 1%positive := {| paths := [] |} ]}; released := [] |}).
Proof. vm_compute. reflexivity. Qed.

Example new_two_paths :
  paths <$> live (new ["a.png"; "b.png"] Sample.empty_store).2 !! 1%positive
  = Some ["a.png"; "b.png"].
Proof. vm_compute. reflexivity. Qed.

Example destruct_twice :
  let '(w, s1) := new ["a.png"] Sample.empty_store in
  match destruct w s1 with
  | Some (w', s2) =>
      released s2 = [1%positive] ∧ live s2 = ∅ ∧ destruct w' s2 = None
  | None => False
  end.
Proof. vm_compute. done. Qed.

Lemma ImageStream_new_paths_sample :
  paths <$> live (new ["a.png"; "b.png"] Sample.empty_store).2
              !! imageStreamObj (new ["a.png"; "b.png"] Sample.empty_store).1
  = Some ["a.png"; "b.png"].
Proof.
  apply (ImageStream_new_paths ["a.png"; "b.png"] Sample.empty_store).
Defined.


End StreamExamples.

(** ** The two functions on the sample library *)

Section TranslationExamples.

#[local] Existing Instance Sample.native.
#[local] Existing Instance Sample.utils.

Example getErrorCode_dimension_error :
  getErrorCode Companion.Error.dimension_error = ErrorCode.dimension_error.
Proof. reflexivity. Qed.

Example getErrorCode_unmapped : getErrorCode 42 = 0x80000100.
Proof. reflexivity. Qed.

Example getError_dimension_error :
  getError ErrorCode.dimension_error = "Dimensions are unequal.".
Proof. reflexivity. Qed.

Example getError_model_not_added :
  getError 0x8000010D = "Could not add model to configuration.".
Proof. reflexivity. Qed.

Example getError_past_the_last_enumerator :
  getError 0x80000112 = "Unknown Error".
Proof. reflexivity. Qed.

End TranslationExamples.

(** * Further properties of the translation tables *)

Section TableCoverage.

Context `{Native : Companion.Error.Lib} `{Utils : CompanionUtils}.

Lemma unknown_error_not_mirrored :
  ErrorCode.unknown_error ∉ ErrorCode.mirrored.
Proof. compute_done. Qed.

(** Every mirrored enumerator is assigned by a case of [getErrorCode]. *)
Lemma mirrored_covered e :
  e ∈ ErrorCode.mirrored → ∃ c, (c, e) ∈ getErrorCode_cases.
Proof.
  intros He.
  assert (Hin : e ∈ getErrorCode_cases.*2).
  { revert e He. apply Forall_forall. compute_done. }
  apply list_elem_of_fmap in Hin as ([c e'] & -> & Hin). by exists c.
Qed.

(** The integers are not exhausted by the labels of [getErrorCode]. *)
Lemma unmapped_code_exists : ∃ code : Companion.Error.Code, code ∉ mapped_codes.
Proof. exists (fresh mapped_codes). apply infinite_is_fresh. Qed.

(** X1: [getErrorCode] answers [unknown_error] exactly for the native codes
    that are no label of its switch: a native code with a case is never
    reported as unknown. *)
Theorem getErrorCode_unknown_iff (code : Companion.Error.Code) :
  getErrorCode code = ErrorCode.unknown_error ↔ code ∉ mapped_codes.
Proof.
  split.
  - intros Hres Hin.
    apply getErrorCode_mapped in Hin as (e & Hcase & He).
    apply unknown_error_not_mirrored. rewrite <- Hres, He.
    apply getErrorCode_targets, list_elem_of_fmap. by exists (code, e).
  - apply switch_no_label.
Qed.

(** X2: two native codes with the same translation are the same code, unless
    the translation is [unknown_error]: a platform code other than
    [unknown_error] identifies the native code it came from. *)
Theorem getErrorCode_collision (c1 c2 : Companion.Error.Code) :
  getErrorCode c1 = getErrorCode c2 →
  c1 = c2 ∨
  (getErrorCode c1 = ErrorCode.unknown_error ∧
   getErrorCode c2 = ErrorCode.unknown_error).
Proof.
  intros Heq. unfold getErrorCode in *. cbv zeta in *.
  destruct (switch_cases c1 getErrorCode_cases ErrorCode.unknown_error)
    as [[_ H1]|(e1 & Hin1 & H1)];
  destruct (switch_cases c2 getErrorCode_cases ErrorCode.unknown_error)
    as [[_ H2]|(e2 & Hin2 & H2)].
  - by right.
  - right. split; [done|]. by rewrite <- Heq.
  - right. split; [|done]. by rewrite Heq.
  - left. apply (getErrorCode_cases_inj c1 c2 e1); [done|].
    by replace e1 with e2 by congruence.
Qed.

(** X3: provided the twelve native enumerators are pairwise distinct, the
    platform codes that [getErrorCode] can return are exactly
    [unknown_error] and the twelve mirrored enumerators: each of them is the
    translation of some native code. *)
Theorem getErrorCode_image_exact (e : ErrorCode.t) :
  NoDup mapped_codes →
  (e ∈ ErrorCode.unknown_error :: ErrorCode.mirrored ↔
   ∃ code, getErrorCode code = e).
Proof.
  intros Hdistinct. split.
  - intros [->|He]%elem_of_cons.
    + destruct unmapped_code_exists as [code Hcode].
      exists code. by apply switch_no_label.
    + destruct (mirrored_covered e He) as [c Hc].
      exists c. by apply switch_hit.
  - intros [code <-]. unfold getErrorCode.
    destruct (switch_cases code getErrorCode_cases ErrorCode.unknown_error)
      as [[_ ->]|(e & Hin & ->)]; [by left|].
    right. apply getErrorCode_targets, list_elem_of_fmap. by exists (code, e).
Qed.

Lemma enumerators_have_case e :
  e ∈ (ErrorCode.mirrored ++ ErrorCode.wrapper_local)%list → e ∈ getError_labels.
Proof. revert e. apply Forall_forall. compute_done. Qed.

(** X4: the switch of [getError] has a case for every enumerator of
    [ErrorCode] except [unknown_error], and for nothing else. *)
Theorem getError_labels_exact (code : ErrorCode.t) :
  code ∈ getError_labels ↔
  code ∈ ErrorCode.enumerators ∧ code ≠ ErrorCode.unknown_error.
Proof.
  split.
  - intros Hin. split; [by apply getError_labels_enumerators|].
    intros ->. revert Hin. compute_done.
  - intros [[->|Hin]%elem_of_cons Hne]; [done|].
    by apply enumerators_have_case.
Qed.

(** X5: provided the twelve native enumerators are pairwise distinct, the
    message of every mirrored platform code is the converted native message
    of a native code that [getErrorCode] translates to it. *)
Theorem getError_mirrored_native (e : ErrorCode.t) :
  NoDup mapped_codes →
  e ∈ ErrorCode.mirrored →
  ∃ code, getErrorCode code = e ∧
          getError e = ss2ps (Companion.Error.getError code).
Proof.
  intros Hdistinct He.
  destruct (mirrored_covered e He) as [c Hc].
  exists c. split; [by apply switch_hit | by apply getError_of_case].
Qed.

(** X6: a native code without a case in [getErrorCode] gets the message
    "Unknown Error", whatever the native library's message for it is. *)
Theorem translate_unmapped_message (code : Companion.Error.Code) :
  code ∉ mapped_codes →
  getError (getErrorCode code) = "Unknown Error".
Proof.
  intros Hnot. unfold getErrorCode. by rewrite switch_no_label.
Qed.

End TableCoverage.

Section MessageCoverage.

Context `{Native : Companion.Error.Lib} `{Utils : CompanionUtils}.

(** X7: whatever the native library and [ss2ps] are, the messages of two
    different additional codes differ, and none of them is the default
    "Unknown Error": the message tells the additional codes apart. *)
Theorem wrapper_local_messages_distinct (e1 e2 : ErrorCode.t) :
  e1 ∈ ErrorCode.wrapper_local → e2 ∈ ErrorCode.wrapper_local → e1 ≠ e2 →
  getError e1 ≠ getError e2 ∧ getError e1 ≠ "Unknown Error".
Proof.
  unfold ErrorCode.wrapper_local. intros H1 H2 Hne.
  repeat (apply elem_of_cons in H1 as [->|H1]);
    try (by apply elem_of_nil in H1);
    (split; [|intros Heq; vm_compute in Heq; discriminate Heq]);
    repeat (apply elem_of_cons in H2 as [->|H2]);
    try (by apply elem_of_nil in H2);
    first [ done | intros Heq; vm_compute in Heq; discriminate Heq ].
Qed.

End MessageCoverage.

(** ** The further properties at the sample library *)

Lemma getErrorCode_collision_sample :
  getErrorCode (Native := Sample.native) 12
    = getErrorCode (Native := Sample.native) 13 ∧
  (12 = 13 ∨
   (getErrorCode (Native := Sample.native) 12 = ErrorCode.unknown_error ∧
    getErrorCode (Native := Sample.native) 13 = ErrorCode.unknown_error)).
Proof.
  split; [reflexivity|].
  apply (getErrorCode_collision (Native := Sample.native) 12 13). reflexivity.
Defined.

Lemma getErrorCode_image_exact_sample :
  NoDup (mapped_codes (Native := Sample.native)) ∧
  ∃ code, getErrorCode (Native := Sample.native) code
          = ErrorCode.wrong_model_type.
Proof.
  assert (Hdistinct : NoDup (mapped_codes (Native := Sample.native)))
    by compute_done.
  split; [exact Hdistinct|].
  apply (getErrorCode_image_exact (Native := Sample.native)
           ErrorCode.wrong_model_type Hdistinct).
  compute_done.
Defined.

Lemma getError_mirrored_native_sample :
  ∃ code,
    getErrorCode (Native := Sample.native) code = ErrorCode.no_handler_set ∧
    getError (Native := Sample.native) (Utils := Sample.utils)
      ErrorCode.no_handler_set
    = Companion.Error.getError (Lib := Sample.native) code.
Proof.
  apply (getError_mirrored_native (Native := Sample.native)
           (Utils := Sample.utils) ErrorCode.no_handler_set);
    compute_done.
Defined.

Lemma translate_unmapped_message_sample :
  getError (Native := Sample.native) (Utils := Sample.utils)
    (getErrorCode (Native := Sample.native) 12) = "Unknown Error".
Proof.
  apply (translate_unmapped_message (Native := Sample.native)
           (Utils := Sample.utils) 12).
  compute_done.
Defined.

Lemma wrapper_local_messages_distinct_sample :
  getError (Native := Sample.native) (Utils := Sample.utils)
    ErrorCode.recognition_not_found
  ≠ getError (Native := Sample.native) (Utils := Sample.utils)
      ErrorCode.objectdetection_not_found.
Proof.
  apply (wrapper_local_messages_distinct (Native := Sample.native)
           (Utils := Sample.utils) ErrorCode.recognition_not_found
           ErrorCode.objectdetection_not_found); compute_done.
Defined.
